(** * Triangular arbitrage over FIL-ETH, ETH-BSV and FIL-BSV (src/main.go)

    A shallow embedding of [TriArbStrategy.Execute], of the feed
    [connectAndReceivePrices] and of the loop of [main], and the
    properties of the specification and of the code that are about them.

    Numbers.  The program computes in Go's [float64].  The embedding is
    written once over an interface of the arithmetic the program uses
    ([Float64]) and run at two instances: [binary64], Rocq's primitive
    IEEE 754 binary64 floats (the program's own type, every operation
    rounded on its own to nearest-even, as Go compiles it where it does
    not fuse a multiplication with an addition), and [exact], the
    rationals (the "decimal" of the specification, without rounding).

    Output.  Every [fmt.Printf] of [Execute] is kept as an [Event] of the
    run, with the numbers it prints.

    The variable [ethGet].  The reverse block of [Execute] reads [ethGet],
    which the source declares inside the forward block only (lines 58 and
    96), and Go's scoping rejects that.  The embedding reads the variable
    as one variable of the whole function: it holds what the forward block
    assigned when that block ran, and otherwise the value [ethGet0] that
    [Execute] takes as a parameter ([0] if the declaration is hoisted as
    [var ethGet float64]).  Every theorem holds for every [ethGet0]. *)

From Stdlib Require Import Floats QArith Lqa.
From stdpp Require Import gmap strings list fin_maps.

Set Warnings "-inexact-float".

(** ** The arithmetic of the program *)

(** The operations [Execute] applies to [float64] values: [+ - * /], the
    comparison [<] ([x > y] is [y < x]), [==], and the literals [0], [1]
    and [100.0]. *)
Class Float64 (F : Type) := {
  fadd : F → F → F;
  fsub : F → F → F;
  fmul : F → F → F;
  fdiv : F → F → F;
  fltb : F → F → bool;
  feqb : F → F → bool;
  f0 : F;
  f1 : F;
  f100 : F
}.

Definition fgtb `{Float64 F} (x y : F) : bool := fltb y x.

(** What the comparisons guarantee: [<] is strict. *)
Class Float64Strict (F : Type) `{Float64 F} := {
  fltb_irrefl : ∀ x : F, fltb x x = false;
  feqb_not_fltb : ∀ x y : F, feqb x y = true → fltb x y = false
}.

Declare Scope f64_scope.
Delimit Scope f64_scope with f64.
Infix "+" := fadd : f64_scope.
Infix "-" := fsub : f64_scope.
Infix "*" := fmul : f64_scope.
Infix "/" := fdiv : f64_scope.
Infix "<?" := fltb : f64_scope.
Infix ">?" := fgtb (at level 70) : f64_scope.
Infix "=?" := feqb : f64_scope.

(** IEEE 754 binary64, as Go's [float64]. *)
#[export] Instance binary64 : Float64 float := {
  fadd := PrimFloat.add;
  fsub := PrimFloat.sub;
  fmul := PrimFloat.mul;
  fdiv := PrimFloat.div;
  fltb := PrimFloat.ltb;
  feqb := PrimFloat.eqb;
  f0 := 0%float;
  f1 := 1%float;
  f100 := 100%float
}.

Definition Qltb (x y : Q) : bool := negb (Qle_bool y x).

(** Exact rational arithmetic. *)
#[export] Instance exact : Float64 Q := {
  fadd := Qplus;
  fsub := Qminus;
  fmul := Qmult;
  fdiv := Qdiv;
  fltb := Qltb;
  feqb := Qeq_bool;
  f0 := 0%Q;
  f1 := 1%Q;
  f100 := 100%Q
}.

(** ** Data model *)

(** const ( FIL_ETH = ...; ETH_BSV = ...; FIL_BSV = ... ) *)
Definition FIL_ETH : string := "FIL-ETH".
Definition ETH_BSV : string := "ETH-BSV".
Definition FIL_BSV : string := "FIL-BSV".

Inductive Asset := FIL | ETH | BSV.

Section Model.
Context {F : Type} `{Float64 F}.
Local Open Scope f64_scope.

(** type PriceInfo struct *)
Record PriceInfo := mkPriceInfo {
  Symbol : string;
  Bid : F;
  Ask : F
}.

(** type TriArbStrategy struct *)
Record TriArbStrategy := mkStrategy {
  FilAmount : F;
  EthAmount : F;
  BsvAmount : F;
  CostRate : F;
  SlipRate : F
}.

(** One [fmt.Printf] of [Execute], with the values it formats:
    [Bought src dst cost get] is "用 cost 个 src 买入 get 个 dst",
    [Sold src dst cost get] is "用 cost 个 src 卖出 get 个 dst",
    [ForwardDone a b] and [ReverseDone a b] are the closing lines
    "完成一次正向/反向套利，FIL币量从 a 增加到了 b". *)
Inductive Event :=
| Bought (src dst : Asset) (cost get : F)
| Sold (src dst : Asset) (cost get : F)
| ForwardDone (from to : F)
| ReverseDone (from to : F).

(** ** Running a method of the strategy

    A computation reads and updates the receiver [s *TriArbStrategy] and
    prints: it maps the strategy before to its result, the strategy after
    and the lines printed, in order. *)
Definition Run (A : Type) : Type :=
  TriArbStrategy → A * TriArbStrategy * list Event.

Definition ret {A} (a : A) : Run A := λ s, (a, s, []).

Definition bind {A B} (m : Run A) (k : A → Run B) : Run B := λ s,
  let r1 := m s in
  let r2 := k (r1.1.1) (r1.1.2) in
  (r2.1.1, r2.1.2, r1.2 ++ r2.2).

(** [s.Field] *)
Definition load {A} (field : TriArbStrategy → A) : Run A := λ s, (field s, s, []).

(** [s.XAmount -= x] *)
Definition debit (a : Asset) (x : F) : Run unit := λ s,
  (tt,
   match a with
   | FIL => mkStrategy (FilAmount s - x) (EthAmount s) (BsvAmount s) (CostRate s) (SlipRate s)
   | ETH => mkStrategy (FilAmount s) (EthAmount s - x) (BsvAmount s) (CostRate s) (SlipRate s)
   | BSV => mkStrategy (FilAmount s) (EthAmount s) (BsvAmount s - x) (CostRate s) (SlipRate s)
   end, []).

(** [s.XAmount += x] *)
Definition credit (a : Asset) (x : F) : Run unit := λ s,
  (tt,
   match a with
   | FIL => mkStrategy (FilAmount s + x) (EthAmount s) (BsvAmount s) (CostRate s) (SlipRate s)
   | ETH => mkStrategy (FilAmount s) (EthAmount s + x) (BsvAmount s) (CostRate s) (SlipRate s)
   | BSV => mkStrategy (FilAmount s) (EthAmount s) (BsvAmount s + x) (CostRate s) (SlipRate s)
   end, []).

(** [fmt.Printf(...)] *)
Definition printf (e : Event) : Run unit := λ s, (tt, s, [e]).

Notation "x ⇐ m ;; k" := (bind m (λ x, k))
  (at level 100, m at next level, right associativity).
Notation "m ;; k" := (bind m (λ _, k))
  (at level 100, right associativity).

(** The strategy after a run, and what the run printed. *)
Definition after {A} (r : A * TriArbStrategy * list Event) : TriArbStrategy := r.1.2.
Definition printed {A} (r : A * TriArbStrategy * list Event) : list Event := r.2.

(** ** [Execute] *)

(** Lines 53-81, the body of [if forwardArbCond]; the result is the value
    the block leaves in [ethGet]. *)
Definition forwardArb (filEthPrice ethBsvPrice filBsvPrice : PriceInfo) : Run F :=
  let filToSell := f100 in
  costRate ⇐ load CostRate ;;
  let filCost := filToSell / (f1 - costRate) in
  let ethToBuy := filToSell * Ask filEthPrice in
  slipRate ⇐ load SlipRate ;;
  let ethGet := ethToBuy * (f1 - slipRate) in
  debit FIL filCost ;;
  credit ETH ethGet ;;
  printf (Bought FIL ETH filCost ethGet) ;;
  let ethToSell := ethGet in
  costRate ⇐ load CostRate ;;
  let ethCost := ethToSell / (f1 - costRate) in
  let bsvToBuy := ethToSell * Ask ethBsvPrice in
  slipRate ⇐ load SlipRate ;;
  let bsvGet := bsvToBuy * (f1 - slipRate) in
  debit ETH ethCost ;;
  credit BSV bsvGet ;;
  printf (Bought ETH BSV ethCost bsvGet) ;;
  let bsvToSell := bsvGet in
  costRate ⇐ load CostRate ;;
  let bsvCost := bsvToSell / (f1 - costRate) in
  let filToBuy := bsvToSell * Bid filBsvPrice in
  slipRate ⇐ load SlipRate ;;
  let filGet := filToBuy * (f1 - slipRate) in
  debit BSV bsvCost ;;
  credit FIL filGet ;;
  printf (Bought BSV FIL bsvCost filGet) ;;
  printf (ForwardDone filToSell filGet) ;;
  ret ethGet.

(** Lines 85-104, the body of [if reverseArbCond]; [ethGet] is the value
    the variable of that name holds when the block starts. *)
Definition reverseArb (ethGet : F) (filEthPrice filBsvPrice : PriceInfo) : Run unit :=
  let filToSell := f100 in
  costRate ⇐ load CostRate ;;
  let filCost := filToSell / (f1 - costRate) in
  let bsvToBuy := filToSell * Ask filBsvPrice in
  slipRate ⇐ load SlipRate ;;
  let bsvGet := bsvToBuy * (f1 - slipRate) in
  debit FIL filCost ;;
  credit BSV bsvGet ;;
  printf (Sold FIL BSV filCost bsvGet) ;;
  let ethToSell := ethGet in
  costRate ⇐ load CostRate ;;
  let ethCost := ethToSell / (f1 - costRate) in
  let filToBuy := ethToSell * Bid filEthPrice in
  slipRate ⇐ load SlipRate ;;
  let filGet := filToBuy * (f1 - slipRate) in
  debit ETH ethCost ;;
  credit FIL filGet ;;
  printf (Bought ETH FIL ethCost filGet) ;;
  printf (ReverseDone filToSell filGet) ;;
  ret tt.

(** Line 47. *)
Definition forwardArbCond (filEthPrice ethBsvPrice filBsvPrice : PriceInfo)
    (s : TriArbStrategy) : bool :=
  Ask filEthPrice * Ask ethBsvPrice <? Bid filBsvPrice * (f1 - CostRate s) * (f1 - SlipRate s).

(** Line 50. *)
Definition reverseArbCond (filEthPrice ethBsvPrice filBsvPrice : PriceInfo)
    (s : TriArbStrategy) : bool :=
  Bid filEthPrice * Bid ethBsvPrice >? Ask filBsvPrice * (f1 + CostRate s) * (f1 + SlipRate s).

(** func (s *TriArbStrategy) Execute(prices map[string]*PriceInfo).
    A key that is absent and a key bound to [nil] both read as [None]. *)
Definition Execute (ethGet0 : F) (prices : gmap string PriceInfo) : Run unit :=
  match prices !! FIL_ETH, prices !! ETH_BSV, prices !! FIL_BSV with
  | Some filEthPrice, Some ethBsvPrice, Some filBsvPrice =>
      forwardCond ⇐ load (forwardArbCond filEthPrice ethBsvPrice filBsvPrice) ;;
      reverseCond ⇐ load (reverseArbCond filEthPrice ethBsvPrice filBsvPrice) ;;
      ethGet ⇐ (if forwardCond
                then forwardArb filEthPrice ethBsvPrice filBsvPrice
                else ret ethGet0) ;;
      if reverseCond then reverseArb ethGet filEthPrice filBsvPrice else ret tt
  | _, _, _ => ret tt
  end.

End Model.

Arguments PriceInfo F : clear implicits.
Arguments TriArbStrategy F : clear implicits.
Arguments Event F : clear implicits.

(** ** The loop of [main] *)

Section Loop.
Context {F : Type}.

(** Line 139: the feed forwards a quote only for one of the three pairs,
    as the one-entry map of line 141. *)
Definition feedMessage (price : PriceInfo F) : option (gmap string (PriceInfo F)) :=
  if bool_decide (Symbol price = FIL_ETH ∨ Symbol price = ETH_BSV ∨ Symbol price = FIL_BSV)
  then Some {[ Symbol price := price ]}
  else None.

(** Lines 174-176: [for symbol, info := range price { priceMap[symbol] = info }]. *)
Definition storePrices (priceMap price : gmap string (PriceInfo F)) : gmap string (PriceInfo F) :=
  map_fold (λ symbol info acc, <[symbol := info]> acc) priceMap price.

End Loop.

(** Lines 158-164, the strategy [main] starts from. *)
Definition strategy0 : TriArbStrategy float :=
  mkStrategy 700%float 0%float 0%float 0.001%float 0.0001%float.

(** ** The leg formulas of the specification (section 4.2, step 4) *)

Section Legs.
Context {F : Type} `{Float64 F}.
Local Open Scope f64_scope.

(** spent = amount / (1 − feeRate) *)
Definition spent (amount feeRate : F) : F := amount / (f1 - feeRate).

(** received = amount × price × (1 − slippageRate) *)
Definition received (amount price slippageRate : F) : F :=
  amount * price * (f1 - slippageRate).


(** The strategy after the three legs of the forward block. *)
Definition forwardLedger (filEthPrice ethBsvPrice filBsvPrice : PriceInfo F)
    (s : TriArbStrategy F) : TriArbStrategy F :=
  let ethGet := received f100 (Ask filEthPrice) (SlipRate s) in
  let bsvGet := received ethGet (Ask ethBsvPrice) (SlipRate s) in
  let filGet := received bsvGet (Bid filBsvPrice) (SlipRate s) in
  mkStrategy (FilAmount s - spent f100 (CostRate s) + filGet)
             (EthAmount s + ethGet - spent ethGet (CostRate s))
             (BsvAmount s + bsvGet - spent bsvGet (CostRate s))
             (CostRate s) (SlipRate s).

(** The lines the forward block prints. *)
Definition forwardLines (filEthPrice ethBsvPrice filBsvPrice : PriceInfo F)
    (s : TriArbStrategy F) : list (Event F) :=
  let ethGet := received f100 (Ask filEthPrice) (SlipRate s) in
  let bsvGet := received ethGet (Ask ethBsvPrice) (SlipRate s) in
  let filGet := received bsvGet (Bid filBsvPrice) (SlipRate s) in
  [ Bought FIL ETH (spent f100 (CostRate s)) ethGet;
    Bought ETH BSV (spent ethGet (CostRate s)) bsvGet;
    Bought BSV FIL (spent bsvGet (CostRate s)) filGet;
    ForwardDone f100 filGet ].

(** The strategy after the two legs of the reverse block. *)
Definition reverseLedger (ethGet : F) (filEthPrice filBsvPrice : PriceInfo F)
    (s : TriArbStrategy F) : TriArbStrategy F :=
  mkStrategy (FilAmount s - spent f100 (CostRate s)
                + received ethGet (Bid filEthPrice) (SlipRate s))
             (EthAmount s - spent ethGet (CostRate s))
             (BsvAmount s + received f100 (Ask filBsvPrice) (SlipRate s))
             (CostRate s) (SlipRate s).

(** The lines the reverse block prints. *)
Definition reverseLines (ethGet : F) (filEthPrice filBsvPrice : PriceInfo F)
    (s : TriArbStrategy F) : list (Event F) :=
  let filGet := received ethGet (Bid filEthPrice) (SlipRate s) in
  [ Sold FIL BSV (spent f100 (CostRate s)) (received f100 (Ask filBsvPrice) (SlipRate s));
    Bought ETH FIL (spent ethGet (CostRate s)) filGet;
    ReverseDone f100 filGet ].

End Legs.

(** ** Snapshots and strategies the properties are run on *)

Definition snapshot {F} (filEth ethBsv filBsv : PriceInfo F) : gmap string (PriceInfo F) :=
  <[FIL_ETH := filEth]> (<[ETH_BSV := ethBsv]> (<[FIL_BSV := filBsv]> ∅)).

(** Section 8 of the specification, forward case: filEthAsk=0.1,
    ethBsvAsk=0.5, filBsvBid=0.06; the other side of each quote is one
    tick away, bid below ask. *)
Definition forwardFilEth : PriceInfo float := mkPriceInfo FIL_ETH 0.099%float 0.1%float.
Definition forwardEthBsv : PriceInfo float := mkPriceInfo ETH_BSV 0.49%float 0.5%float.
Definition forwardFilBsv : PriceInfo float := mkPriceInfo FIL_BSV 0.06%float 0.061%float.
Definition forwardPrices : gmap string (PriceInfo float) :=
  snapshot forwardFilEth forwardEthBsv forwardFilBsv.

(** Section 8, reverse case: filEthBid=0.1, ethBsvBid=0.5, filBsvAsk=0.04. *)
Definition reverseFilEth : PriceInfo float := mkPriceInfo FIL_ETH 0.1%float 0.101%float.
Definition reverseEthBsv : PriceInfo float := mkPriceInfo ETH_BSV 0.5%float 0.51%float.
Definition reverseFilBsv : PriceInfo float := mkPriceInfo FIL_BSV 0.039%float 0.04%float.
Definition reversePrices : gmap string (PriceInfo float) :=
  snapshot reverseFilEth reverseEthBsv reverseFilBsv.

(** A crossed FIL-BSV book (bid 0.06 above ask 0.04): both conditions hold. *)
Definition crossedFilEth : PriceInfo float := mkPriceInfo FIL_ETH 0.1%float 0.1%float.
Definition crossedEthBsv : PriceInfo float := mkPriceInfo ETH_BSV 0.5%float 0.5%float.
Definition crossedFilBsv : PriceInfo float := mkPriceInfo FIL_BSV 0.06%float 0.04%float.
Definition crossedPrices : gmap string (PriceInfo float) :=
  snapshot crossedFilEth crossedEthBsv crossedFilBsv.

(** Only two of the three quotes have arrived. *)
Definition partialPrices : gmap string (PriceInfo float) :=
  <[FIL_ETH := forwardFilEth]> (<[ETH_BSV := forwardEthBsv]> ∅).

(** The forward gap exactly at the boundary, at the rates of [main]:
    ask(FIL-ETH) × ask(ETH-BSV) is the float64 value of
    bid(FIL-BSV) × (1 − 0.001) × (1 − 0.0001). *)
Definition boundaryFilEth : PriceInfo float :=
  mkPriceInfo FIL_ETH 0.99%float (1 * (1 - 0.001) * (1 - 0.0001))%float.
Definition boundaryEthBsv : PriceInfo float := mkPriceInfo ETH_BSV 1%float 1%float.
Definition boundaryFilBsv : PriceInfo float := mkPriceInfo FIL_BSV 1%float 1%float.
Definition boundaryPrices : gmap string (PriceInfo float) :=
  snapshot boundaryFilEth boundaryEthBsv boundaryFilBsv.



(** ** The feed and the loop of [main], as a whole *)

Section Pipeline.
Context {F : Type} `{Float64 F}.

(** One turn of the [for] of [connectAndReceivePrices] (lines 122-144),
    by what [conn.ReadMessage] and [json.Unmarshal] return:
    [ReadError] is [err != nil] at line 125, [OtherFrame] a message whose
    type is not [websocket.TextMessage], [BadText] a text message that
    [json.Unmarshal] rejects, [Text price] a text message decoded to
    [price]. *)
Inductive Frame :=
| ReadError
| OtherFrame
| BadText
| Text (price : PriceInfo F).

(** func connectAndReceivePrices, after the connection is made: the maps
    it sends on the channel, in order, for the frames it reads.  A read
    error ends the loop ([break]); a frame of another type, a text that
    does not decode ([continue]) and a quote of another symbol send
    nothing. *)
Fixpoint connectAndReceivePrices (frames : list Frame) : list (gmap string (PriceInfo F)) :=
  match frames with
  | [] => []
  | ReadError :: _ => []
  | OtherFrame :: rest => connectAndReceivePrices rest
  | BadText :: rest => connectAndReceivePrices rest
  | Text price :: rest =>
      match feedMessage price with
      | Some message => message :: connectAndReceivePrices rest
      | None => connectAndReceivePrices rest
      end
  end.

(** What the loop of [main] prints: the lines of [Execute], and the
    balance report of lines 185-190. *)
Inductive Line :=
| Printed (e : Event F)
| Balances (fil eth bsv : F).

(** The lines of [Execute] among the lines of the loop. *)
Definition tradeLines (out : list Line) : list (Event F) :=
  omap (λ line, match line with Printed e => Some e | Balances _ _ _ => None end) out.

(** Lines 169-195, the [for] of [main] over the maps received from the
    channel, from turn [n] on.  Whether the ticker made in a turn has
    already fired when the [select] of that turn looks at it is a matter of
    timing: [fired n] says so for turn [n].  The result is the price map
    and the strategy after the last map received, and everything printed. *)
Fixpoint mainLoop (ethGet0 : F) (fired : nat → bool) (n : nat)
    (priceMap : gmap string (PriceInfo F)) (strategy : TriArbStrategy F)
    (received : list (gmap string (PriceInfo F)))
    : gmap string (PriceInfo F) * TriArbStrategy F * list Line :=
  match received with
  | [] => (priceMap, strategy, [])
  | price :: rest =>
      let priceMap' := storePrices priceMap price in
      let r := Execute ethGet0 priceMap' strategy in
      let report :=
        if fired n
        then [Balances (FilAmount (after r)) (EthAmount (after r)) (BsvAmount (after r))]
        else [] in
      let next := mainLoop ethGet0 fired (S n) priceMap' (after r) rest in
      (next.1.1, next.1.2, (Printed <$> printed r) ++ report ++ next.2)
  end.

(** The parts of the result of the loop. *)
Definition loopPrices (r : gmap string (PriceInfo F) * TriArbStrategy F * list Line)
  : gmap string (PriceInfo F) := r.1.1.
Definition loopStrategy (r : gmap string (PriceInfo F) * TriArbStrategy F * list Line)
  : TriArbStrategy F := r.1.2.
Definition loopOutput (r : gmap string (PriceInfo F) * TriArbStrategy F * list Line)
  : list Line := r.2.

(** The frames that make [connectAndReceivePrices] send nothing and read
    on: every frame but a read error and a quote of one of the three
    pairs. *)
Definition skipped (f : Frame) : Prop :=
  match f with
  | ReadError => False
  | OtherFrame | BadText => True
  | Text price =>
      ¬ (Symbol price = FIL_ETH ∨ Symbol price = ETH_BSV ∨ Symbol price = FIL_BSV)
  end.

(** A price map as the feed builds it: every entry sits under the symbol
    it carries, and that symbol is one of the three pairs. *)
Definition tracked (priceMap : gmap string (PriceInfo F)) : Prop :=
  ∀ symbol q, priceMap !! symbol = Some q →
    Symbol q = symbol ∧ (symbol = FIL_ETH ∨ symbol = ETH_BSV ∨ symbol = FIL_BSV).

End Pipeline.

Arguments Frame F : clear implicits.
Arguments Line F : clear implicits.

(** func main (lines 147-196): the loop from the empty price map and the
    strategy of lines 158-164, fed by [connectAndReceivePrices]. *)
Definition main (ethGet0 : float) (fired : nat → bool) (frames : list (Frame float))
  : gmap string (PriceInfo float) * TriArbStrategy float * list (Line float) :=
  mainLoop ethGet0 fired 0 ∅ strategy0 (connectAndReceivePrices frames).

(** A quote of a pair the strategy does not follow. *)
Definition otherQuote : PriceInfo float := mkPriceInfo "BTC-USDT" 1%float 2%float.

(** Frames read before any FIL-BSV quote has come. *)
Definition framesTwoPairs : list (Frame float) :=
  [Text forwardFilEth; OtherFrame; Text otherQuote; BadText; Text forwardEthBsv].

(** An IEEE 754 not-a-number. *)
Definition NaN (x : float) : Prop := Prim2SF x = S754_nan.

(** The strategy of [main] with a fee rate that is not a number. *)
Definition strategyNaN : TriArbStrategy float :=
  mkStrategy 700%float 0%float 0%float PrimFloat.nan 0.0001%float.


(** * Properties *)

(** ** The comparisons of both arithmetics are strict *)

Lemma SFcompare_refl_not_Lt (x : spec_float) : SFcompare x x ≠ Some Lt.
Proof.
  destruct x as [s | s | | s m e]; simpl; try (destruct s; discriminate); try discriminate.
  rewrite Z.compare_refl, Pos.compare_refl. simpl. destruct s; discriminate.
Qed.

#[export] Instance binary64_strict : Float64Strict float.
Proof.
  split; simpl.
  - intros x. rewrite ltb_spec. unfold SFltb.
    pose proof (SFcompare_refl_not_Lt (Prim2SF x)) as Hx.
    destruct (SFcompare _ _) as [[]|]; congruence.
  - intros x y. rewrite ltb_spec, FloatAxioms.eqb_spec. unfold SFltb, SFeqb.
    destruct (SFcompare _ _) as [[]|]; congruence.
Qed.

Lemma Qltb_lt (x y : Q) : Qltb x y = true ↔ (x < y)%Q.
Proof.
  unfold Qltb. rewrite negb_true_iff. split.
  - intros Hb. apply Qnot_le_lt. intros Hle.
    apply Qle_bool_iff in Hle. congruence.
  - intros Hlt. destruct (Qle_bool y x) eqn:Hb; [|reflexivity].
    apply Qle_bool_iff in Hb. exfalso. exact (Qlt_not_le _ _ Hlt Hb).
Qed.

#[export] Instance exact_strict : Float64Strict Q.
Proof.
  split; simpl.
  - intros x. destruct (Qltb x x) eqn:Hb; [|reflexivity].
    apply Qltb_lt in Hb. exfalso. exact (Qlt_irrefl _ Hb).
  - intros x y Heq. apply Qeq_bool_iff in Heq.
    destruct (Qltb x y) eqn:Hb; [|reflexivity].
    apply Qltb_lt in Hb. rewrite Heq in Hb. exfalso. exact (Qlt_irrefl _ Hb).
Qed.

(** ** What the blocks of [Execute] compute *)

Section Blocks.
Context {F : Type} `{Float64 F}.
Implicit Types (s : TriArbStrategy F) (prices : gmap string (PriceInfo F)).
Implicit Types (filEthPrice ethBsvPrice filBsvPrice : PriceInfo F).





(** [Execute] on a snapshot that has the three quotes. *)
Lemma Execute_run ethGet0 prices filEthPrice ethBsvPrice filBsvPrice s :
  prices !! FIL_ETH = Some filEthPrice →
  prices !! ETH_BSV = Some ethBsvPrice →
  prices !! FIL_BSV = Some filBsvPrice →
  Execute ethGet0 prices s
  = let fwd := forwardArbCond filEthPrice ethBsvPrice filBsvPrice s in
    let rev := reverseArbCond filEthPrice ethBsvPrice filBsvPrice s in
    let s1 := if fwd then forwardLedger filEthPrice ethBsvPrice filBsvPrice s else s in
    let ethGet := if fwd then received f100 (Ask filEthPrice) (SlipRate s) else ethGet0 in
    (tt,
     if rev then reverseLedger ethGet filEthPrice filBsvPrice s1 else s1,
     (if fwd then forwardLines filEthPrice ethBsvPrice filBsvPrice s else [])
       ++ (if rev then reverseLines ethGet filEthPrice filBsvPrice s1 else [])).
Proof.
  intros Hfe Heb Hfb. unfold Execute. rewrite Hfe, Heb, Hfb. cbv zeta.
  destruct (forwardArbCond filEthPrice ethBsvPrice filBsvPrice s) eqn:Hf;
    destruct (reverseArbCond filEthPrice ethBsvPrice filBsvPrice s) eqn:Hr;
    unfold bind, load; cbn [fst snd]; rewrite ?Hf, ?Hr; reflexivity.
Qed.

(** [Execute] on a snapshot that lacks one of the three quotes. *)
Lemma Execute_absent ethGet0 prices s :
  prices !! FIL_ETH = None ∨ prices !! ETH_BSV = None ∨ prices !! FIL_BSV = None →
  Execute ethGet0 prices s = (tt, s, []).
Proof.
  unfold Execute. intros [Hn | [Hn | Hn]]; rewrite Hn;
    repeat (match goal with |- context [match ?o with _ => _ end] => destruct o end);
    reflexivity.
Qed.

Lemma Execute_rates ethGet0 prices s :
  CostRate (after (Execute ethGet0 prices s)) = CostRate s
  ∧ SlipRate (after (Execute ethGet0 prices s)) = SlipRate s.
Proof.
  destruct (prices !! FIL_ETH) as [fe|] eqn:Hfe;
    [destruct (prices !! ETH_BSV) as [eb|] eqn:Heb;
      [destruct (prices !! FIL_BSV) as [fb|] eqn:Hfb|]|].
  - rewrite (Execute_run _ _ _ _ _ _ Hfe Heb Hfb). cbv zeta.
    destruct (forwardArbCond fe eb fb s), (reverseArbCond fe eb fb s); split; reflexivity.
  - rewrite Execute_absent by auto. split; reflexivity.
  - rewrite Execute_absent by auto. split; reflexivity.
  - rewrite Execute_absent by auto. split; reflexivity.
Qed.

End Blocks.

(** ** The engine, in every arithmetic *)

Section Engine.
Context {F : Type} `{Float64 F}.
Local Open Scope f64_scope.




(** C9.  [Execute] writes the three balances only: [CostRate] and
    [SlipRate] are the same after every call. *)
Theorem C9_rates_unchanged (ethGet0 : F) (prices : gmap string (PriceInfo F))
    (s : TriArbStrategy F) :
  CostRate (after (Execute ethGet0 prices s)) = CostRate s
  ∧ SlipRate (after (Execute ethGet0 prices s)) = SlipRate s.
Proof. apply Execute_rates. Qed.

(** C3.  When one of the three quotes is absent from the snapshot,
    [Execute] returns at once: the strategy (three balances and two rates)
    is the one it was given and nothing is printed. *)
Theorem C3_missing_quote_no_op (ethGet0 : F) (prices : gmap string (PriceInfo F))
    (s : TriArbStrategy F) :
  prices !! FIL_ETH = None ∨ prices !! ETH_BSV = None ∨ prices !! FIL_BSV = None →
  Execute ethGet0 prices s = (tt, s, []).
Proof. apply Execute_absent. Qed.

(** C4.  The forward test is a strict [<]: when ask(FIL-ETH) × ask(ETH-BSV)
    equals bid(FIL-BSV) × (1 − CostRate) × (1 − SlipRate) (Go's [==], or
    the very same value), the forward condition is false and the forward
    block does not run: the call does what the reverse block alone does,
    or nothing. *)
Theorem C4_forward_boundary_strict `{!Float64Strict F} (ethGet0 : F)
    (prices : gmap string (PriceInfo F))
    (filEthPrice ethBsvPrice filBsvPrice : PriceInfo F) (s : TriArbStrategy F) :
  prices !! FIL_ETH = Some filEthPrice →
  prices !! ETH_BSV = Some ethBsvPrice →
  prices !! FIL_BSV = Some filBsvPrice →
  (Ask filEthPrice * Ask ethBsvPrice
     =? Bid filBsvPrice * (f1 - CostRate s) * (f1 - SlipRate s)) = true
  ∨ Ask filEthPrice * Ask ethBsvPrice
    = Bid filBsvPrice * (f1 - CostRate s) * (f1 - SlipRate s) →
  forwardArbCond filEthPrice ethBsvPrice filBsvPrice s = false
  ∧ Execute ethGet0 prices s
    = (if reverseArbCond filEthPrice ethBsvPrice filBsvPrice s
       then reverseArb ethGet0 filEthPrice filBsvPrice s
       else (tt, s, [])).
Proof.
  intros Hfe Heb Hfb Heq.
  assert (Hfwd : forwardArbCond filEthPrice ethBsvPrice filBsvPrice s = false).
  { unfold forwardArbCond. destruct Heq as [Heq | Heq].
    - apply feqb_not_fltb. exact Heq.
    - rewrite Heq. apply fltb_irrefl. }
  split; [exact Hfwd|].
  rewrite (Execute_run _ _ _ _ _ _ Hfe Heb Hfb). cbv zeta. rewrite Hfwd.
  destruct (reverseArbCond filEthPrice ethBsvPrice filBsvPrice s); reflexivity.
Qed.

End Engine.

(** ** The price map of [main] *)

(** C8.  A quote that the feed forwards is stored under its own symbol
    whatever the map held there before; every other entry is untouched,
    and no entry is ever removed. *)
Theorem C8_last_write_wins {F : Type} (priceMap : gmap string (PriceInfo F))
    (q : PriceInfo F) (price : gmap string (PriceInfo F)) :
  feedMessage q = Some price →
  let priceMap' := storePrices priceMap price in
  priceMap' !! Symbol q = Some q
  ∧ (∀ symbol, symbol ≠ Symbol q → priceMap' !! symbol = priceMap !! symbol)
  ∧ (∀ symbol, is_Some (priceMap !! symbol) → is_Some (priceMap' !! symbol)).
Proof.
  unfold feedMessage. case_bool_decide; [|discriminate].
  intros [= <-]. cbv zeta. unfold storePrices. rewrite map_fold_singleton.
  split; [apply lookup_insert_eq|]. split.
  - intros symbol Hne. apply lookup_insert_ne. congruence.
  - intros symbol Hsome. destruct (decide (Symbol q = symbol)) as [<- | Hne].
    + rewrite lookup_insert_eq. eauto.
    + rewrite lookup_insert_ne by exact Hne. exact Hsome.
Qed.

(** A FIL-ETH quote stored over a map that already has the three pairs. *)
Lemma C8_last_write_wins_witness :
  feedMessage forwardFilEth = Some {[ FIL_ETH := forwardFilEth ]}
  ∧ storePrices reversePrices {[ FIL_ETH := forwardFilEth ]} !! FIL_ETH = Some forwardFilEth
  ∧ storePrices reversePrices {[ FIL_ETH := forwardFilEth ]} !! ETH_BSV = reversePrices !! ETH_BSV.
Proof.
  assert (Hmsg : feedMessage forwardFilEth = Some {[ FIL_ETH := forwardFilEth ]})
    by reflexivity.
  destruct (C8_last_write_wins reversePrices forwardFilEth _ Hmsg) as (Hq & Hother & _).
  split; [exact Hmsg|]. split; [exact Hq|].
  apply Hother. discriminate.
Defined.

(** ** Runs in IEEE 754 binary64 *)

Section Binary64.
Local Open Scope float_scope.




(** C2, on the section 8 example for the reverse case.  Only the reverse
    condition holds, and the reverse block runs two legs, not three: it
    sells FIL for BSV, then buys FIL with ETH.  No leg turns the BSV into
    ETH: BSV is credited and never debited, ETH is debited and never
    credited, and the ETH amount sold is whatever [ethGet] holds, which
    this block never assigns. *)
Theorem C2_reverse_block_has_two_legs (ethGet0 : float) :
  forwardArbCond reverseFilEth reverseEthBsv reverseFilBsv strategy0 = false
  ∧ reverseArbCond reverseFilEth reverseEthBsv reverseFilBsv strategy0 = true
  ∧ printed (Execute ethGet0 reversePrices strategy0)
    = [ Sold FIL BSV (100 / (1 - 0.001)) (100 * 0.04 * (1 - 0.0001));
        Bought ETH FIL (ethGet0 / (1 - 0.001)) (ethGet0 * 0.1 * (1 - 0.0001));
        ReverseDone 100 (ethGet0 * 0.1 * (1 - 0.0001)) ]
  ∧ BsvAmount (after (Execute ethGet0 reversePrices strategy0))
    = 0 + 100 * 0.04 * (1 - 0.0001)
  ∧ EthAmount (after (Execute ethGet0 reversePrices strategy0))
    = 0 - ethGet0 / (1 - 0.001).
Proof.
  assert (Hfe : reversePrices !! FIL_ETH = Some reverseFilEth) by (vm_compute; reflexivity).
  assert (Heb : reversePrices !! ETH_BSV = Some reverseEthBsv) by (vm_compute; reflexivity).
  assert (Hfb : reversePrices !! FIL_BSV = Some reverseFilBsv) by (vm_compute; reflexivity).
  assert (Hfwd : forwardArbCond reverseFilEth reverseEthBsv reverseFilBsv strategy0 = false)
    by (vm_compute; reflexivity).
  assert (Hrev : reverseArbCond reverseFilEth reverseEthBsv reverseFilBsv strategy0 = true)
    by (vm_compute; reflexivity).
  split; [exact Hfwd|]. split; [exact Hrev|].
  rewrite (Execute_run _ _ _ _ _ _ Hfe Heb Hfb). cbv zeta. rewrite Hfwd, Hrev.
  repeat split; vm_compute; reflexivity.
Qed.

(** FIL-BSV has not arrived yet. *)
Lemma C3_missing_quote_no_op_witness :
  partialPrices !! FIL_BSV = None
  ∧ Execute 0 partialPrices strategy0 = (tt, strategy0, []).
Proof.
  assert (Hnone : partialPrices !! FIL_BSV = None) by (vm_compute; reflexivity).
  split; [exact Hnone|].
  apply (C3_missing_quote_no_op 0 partialPrices strategy0). right. right. exact Hnone.
Defined.

(** The gap exactly on the boundary, at the rates of [main]. *)
Lemma C4_forward_boundary_strict_witness :
  PrimFloat.eqb (Ask boundaryFilEth * Ask boundaryEthBsv)
                (Bid boundaryFilBsv * (1 - 0.001) * (1 - 0.0001)) = true
  ∧ forwardArbCond boundaryFilEth boundaryEthBsv boundaryFilBsv strategy0 = false
  ∧ Execute 0 boundaryPrices strategy0 = (tt, strategy0, []).
Proof.
  assert (Heq : PrimFloat.eqb (Ask boundaryFilEth * Ask boundaryEthBsv)
                  (Bid boundaryFilBsv * (1 - 0.001) * (1 - 0.0001)) = true)
    by (vm_compute; reflexivity).
  assert (Hfe : boundaryPrices !! FIL_ETH = Some boundaryFilEth) by (vm_compute; reflexivity).
  assert (Heb : boundaryPrices !! ETH_BSV = Some boundaryEthBsv) by (vm_compute; reflexivity).
  assert (Hfb : boundaryPrices !! FIL_BSV = Some boundaryFilBsv) by (vm_compute; reflexivity).
  destruct (C4_forward_boundary_strict 0 boundaryPrices _ _ _ strategy0 Hfe Heb Hfb)
    as [Hfwd Hrun]; [left; exact Heq|].
  split; [exact Heq|]. split; [exact Hfwd|].
  rewrite Hrun. vm_compute. reflexivity.
Defined.

(** C5.  From the strategy [main] starts with (700 FIL, no ETH, no BSV) and
    the section 8 forward example: the second leg debits more ETH than the
    first leg credited, nothing checks the balance, the three legs all run
    and print, and the ETH balance ends below zero. *)
Theorem C5_overdraw_goes_negative :
  ∃ (prices : gmap string (PriceInfo float)) (s : TriArbStrategy float)
    (filEthPrice ethBsvPrice filBsvPrice : PriceInfo float),
    prices !! FIL_ETH = Some filEthPrice
    ∧ prices !! ETH_BSV = Some ethBsvPrice
    ∧ prices !! FIL_BSV = Some filBsvPrice
    ∧ PrimFloat.leb 0 (FilAmount s) = true
    ∧ PrimFloat.leb 0 (EthAmount s) = true
    ∧ PrimFloat.leb 0 (BsvAmount s) = true
    ∧ forwardArbCond filEthPrice ethBsvPrice filBsvPrice s = true
    ∧ (let ethGet := received f100 (Ask filEthPrice) (SlipRate s) in
       PrimFloat.ltb (EthAmount s + ethGet) (spent ethGet (CostRate s)) = true)
    ∧ PrimFloat.ltb (EthAmount (after (Execute 0 prices s))) 0 = true
    ∧ printed (Execute 0 prices s) = forwardLines filEthPrice ethBsvPrice filBsvPrice s.
Proof.
  exists forwardPrices, strategy0, forwardFilEth, forwardEthBsv, forwardFilBsv.
  repeat split; vm_compute; reflexivity.
Qed.



End Binary64.

(** ** Runs in exact arithmetic *)

Section Exact.
Local Open Scope Q_scope.




End Exact.

(** * Further properties of the code *)

(** ** The price map *)

Section PriceMap.
Context {F : Type}.
Implicit Types (priceMap price : gmap string (PriceInfo F)).

Lemma storePrices_union priceMap price : storePrices priceMap price = price ∪ priceMap.
Proof.
  unfold storePrices.
  apply (map_fold_weak_ind (λ r m, r = m ∪ priceMap)).
  - symmetry. apply (left_id_L ∅ (∪)).
  - intros symbol info m r Hnone ->. apply insert_union_l.
Qed.

(** X1.  After the [range] loop of lines 174-176 over a received map of
    any size, a symbol reads as the received entry when the received map
    has one, and as before otherwise. *)
Theorem X1_store_overrides priceMap price symbol :
  storePrices priceMap price !! symbol
  = match price !! symbol with
    | Some info => Some info
    | None => priceMap !! symbol
    end.
Proof.
  rewrite storePrices_union, lookup_union.
  destruct (price !! symbol), (priceMap !! symbol); reflexivity.
Qed.

(** X2.  Storing two received maps one after the other is storing the
    second laid over the first: on a symbol both carry, the later one
    stays. *)
Theorem X2_store_twice priceMap price1 price2 :
  storePrices (storePrices priceMap price1) price2 = storePrices priceMap (price2 ∪ price1).
Proof. rewrite !storePrices_union. apply (assoc_L (∪)). Qed.

Lemma storePrices_tracked priceMap price :
  tracked priceMap → tracked price → tracked (storePrices priceMap price).
Proof.
  intros Hm Hp symbol q. rewrite storePrices_union, lookup_union_Some_raw.
  intros [Hq | [_ Hq]]; [exact (Hp _ _ Hq) | exact (Hm _ _ Hq)].
Qed.

Lemma foldl_storePrices_absent (received : list (gmap string (PriceInfo F))) priceMap symbol :
  Forall (λ price, price !! symbol = None) received →
  foldl storePrices priceMap received !! symbol = priceMap !! symbol.
Proof.
  revert priceMap. induction received as [|price rest IH]; intros priceMap Hall; [reflexivity|].
  apply Forall_cons in Hall as [Hp Hrest]. cbn [foldl].
  rewrite (IH _ Hrest), storePrices_union, lookup_union, Hp.
  destruct (priceMap !! symbol); reflexivity.
Qed.

End PriceMap.

(** ** The feed *)

Section Feed.
Context {F : Type}.
Implicit Types (frames before rest : list (Frame F)).

(** X3.  A read error ends the feed: whatever frames would follow it,
    nothing more is sent. *)
Theorem X3_feed_stops_at_read_error before rest :
  connectAndReceivePrices (before ++ ReadError :: rest) = connectAndReceivePrices before.
Proof.
  induction before as [|f before IH]; [reflexivity|].
  destruct f as [| | |price]; cbn [app connectAndReceivePrices]; try exact IH; try reflexivity.
  destruct (feedMessage price); rewrite IH; reflexivity.
Qed.

(** X4.  A frame that is not text, a text that does not decode and a quote
    of a pair other than the three are dropped without a trace: the feed
    sends what it would send had the frame never come. *)
Theorem X4_feed_skips before (f : Frame F) rest :
  skipped f →
  connectAndReceivePrices (before ++ f :: rest) = connectAndReceivePrices (before ++ rest).
Proof.
  intros Hskip.
  assert (Hf : connectAndReceivePrices (f :: rest) = connectAndReceivePrices rest).
  { destruct f as [| | |price]; cbn in *; try reflexivity; [contradiction|].
    unfold feedMessage. rewrite bool_decide_eq_false_2 by exact Hskip. reflexivity. }
  induction before as [|g before IH]; [exact Hf|].
  destruct g as [| | |price]; cbn [app connectAndReceivePrices]; try exact IH; try reflexivity.
  destruct (feedMessage price); rewrite IH; reflexivity.
Qed.

(** X5.  Every map the feed sends holds one quote that it read, under the
    symbol the quote carries, and that symbol is one of the three pairs. *)
Theorem X5_feed_sends_tracked_quotes frames (message : gmap string (PriceInfo F)) :
  message ∈ connectAndReceivePrices frames →
  ∃ q, Text q ∈ frames
       ∧ message = {[ Symbol q := q ]}
       ∧ (Symbol q = FIL_ETH ∨ Symbol q = ETH_BSV ∨ Symbol q = FIL_BSV).
Proof.
  induction frames as [|f frames IH]; cbn [connectAndReceivePrices].
  - intros Hin. apply elem_of_nil in Hin. contradiction.
  - assert (Hrest : message ∈ connectAndReceivePrices frames →
      ∃ q, Text q ∈ f :: frames ∧ message = {[ Symbol q := q ]}
           ∧ (Symbol q = FIL_ETH ∨ Symbol q = ETH_BSV ∨ Symbol q = FIL_BSV)).
    { intros Hin. destruct (IH Hin) as (q & Hq & Hm & Hs).
      exists q. split; [apply elem_of_cons; right; exact Hq | auto]. }
    destruct f as [| | |price]; try exact Hrest.
    + intros Hin. apply elem_of_nil in Hin. contradiction.
    + unfold feedMessage at 1. case_bool_decide as Hsym; [|exact Hrest].
      intros Hin. apply elem_of_cons in Hin as [-> | Hin]; [|exact (Hrest Hin)].
      exists price. split; [apply elem_of_cons; left; reflexivity | auto].
Qed.

Lemma feed_absent frames symbol :
  (∀ q, Text q ∈ frames → Symbol q ≠ symbol) →
  Forall (λ price : gmap string (PriceInfo F), price !! symbol = None)
         (connectAndReceivePrices frames).
Proof.
  intros Hno. apply Forall_forall. intros message Hin.
  induction frames as [|f frames IH]; cbn [connectAndReceivePrices] in Hin.
  - apply elem_of_nil in Hin. contradiction.
  - assert (Hrest : ∀ q, Text q ∈ frames → Symbol q ≠ symbol).
    { intros q Hq. apply Hno. apply elem_of_cons. right. exact Hq. }
    destruct f as [| | |price]; try (apply IH; assumption).
    + apply elem_of_nil in Hin. contradiction.
    + unfold feedMessage in Hin. case_bool_decide; [|apply IH; assumption].
      apply elem_of_cons in Hin as [-> | Hin]; [|apply IH; assumption].
      apply lookup_singleton_ne. apply Hno. apply elem_of_cons. left. reflexivity.
Qed.

Lemma feed_tracked frames : Forall tracked (connectAndReceivePrices frames).
Proof.
  induction frames as [|f frames IH]; cbn [connectAndReceivePrices]; [constructor|].
  destruct f as [| | |price]; try exact IH; [constructor|].
  unfold feedMessage. case_bool_decide as Hsym; [|exact IH].
  constructor; [|exact IH].
  intros symbol q Hq. apply lookup_singleton_Some in Hq as [<- <-]. auto.
Qed.

Lemma feed_app_no_error before rest :
  ReadError ∉ before →
  connectAndReceivePrices (before ++ rest)
  = connectAndReceivePrices before ++ connectAndReceivePrices rest.
Proof.
  induction before as [|f before IH]; intros Hno; [reflexivity|].
  apply not_elem_of_cons in Hno as [Hf Hno].
  destruct f as [| | |price]; cbn [app connectAndReceivePrices]; try (apply IH; exact Hno);
    [congruence|].
  destruct (feedMessage price); rewrite (IH Hno); reflexivity.
Qed.

End Feed.

(** ** The loop of [main] over what the feed sends *)

Section MainLoop.
Context {F : Type} `{Float64 F}.
Implicit Types (priceMap price : gmap string (PriceInfo F)) (strategy : TriArbStrategy F).
Implicit Types (received : list (gmap string (PriceInfo F))) (frames : list (Frame F)).
Implicit Types (fired : nat → bool).

Lemma tradeLines_app (out1 out2 : list (Line F)) :
  tradeLines (out1 ++ out2) = tradeLines out1 ++ tradeLines out2.
Proof. unfold tradeLines. apply omap_app. Qed.

Lemma tradeLines_Printed (l : list (Event F)) : tradeLines (Printed <$> l) = l.
Proof. induction l as [|e l IH]; [reflexivity|]. cbn. f_equal. exact IH. Qed.

Lemma tradeLines_report (b : bool) (x y z : F) :
  tradeLines (if b then [Balances x y z] else []) = [].
Proof. destruct b; reflexivity. Qed.

Lemma printed_silent ethGet0 priceMap strategy :
  printed (Execute ethGet0 priceMap strategy) = [] →
  after (Execute ethGet0 priceMap strategy) = strategy.
Proof.
  destruct (priceMap !! FIL_ETH) as [fe|] eqn:Hfe;
    [destruct (priceMap !! ETH_BSV) as [eb|] eqn:Heb;
      [destruct (priceMap !! FIL_BSV) as [fb|] eqn:Hfb|]|];
    try (rewrite Execute_absent by auto; reflexivity).
  rewrite (Execute_run _ _ _ _ _ _ Hfe Heb Hfb). cbv zeta.
  destruct (forwardArbCond fe eb fb strategy), (reverseArbCond fe eb fb strategy);
    cbn; try discriminate; reflexivity.
Qed.

Lemma loopPrices_foldl ethGet0 fired n priceMap strategy received :
  loopPrices (mainLoop ethGet0 fired n priceMap strategy received)
  = foldl storePrices priceMap received.
Proof.
  revert n priceMap strategy.
  induction received as [|price rest IH]; intros n priceMap strategy; [reflexivity|].
  cbn [mainLoop foldl]. unfold loopPrices in *. cbn [fst]. apply IH.
Qed.

(** X6.  The loop keeps the price map well formed: started from a map
    whose entries sit under their own symbol, one of the three, it ends
    with such a map after any frames. *)
Theorem X6_price_map_stays_tracked ethGet0 fired n priceMap strategy frames :
  tracked priceMap →
  tracked (loopPrices (mainLoop ethGet0 fired n priceMap strategy
                         (connectAndReceivePrices frames))).
Proof.
  rewrite loopPrices_foldl. pose proof (feed_tracked frames) as Hall.
  revert priceMap. induction Hall as [|price rest Hp _ IH]; intros priceMap Hm; [exact Hm|].
  cbn [foldl]. apply IH. apply storePrices_tracked; assumption.
Qed.

(** X7.  The two rates are the same after any number of turns of the loop
    as before the first. *)
Theorem X7_rates_fixed_over_loop ethGet0 fired n priceMap strategy received :
  CostRate (loopStrategy (mainLoop ethGet0 fired n priceMap strategy received))
  = CostRate strategy
  ∧ SlipRate (loopStrategy (mainLoop ethGet0 fired n priceMap strategy received))
    = SlipRate strategy.
Proof.
  revert n priceMap strategy.
  induction received as [|price rest IH]; intros n priceMap strategy; [split; reflexivity|].
  cbn [mainLoop]. unfold loopStrategy in *. cbn [fst snd].
  destruct (IH (S n) (storePrices priceMap price)
              (after (Execute ethGet0 (storePrices priceMap price) strategy))) as [Hc Hs].
  destruct (Execute_rates ethGet0 (storePrices priceMap price) strategy) as [Hc' Hs'].
  split; congruence.
Qed.

(** X8.  No trade before the three pairs have been quoted: while one of
    the three symbols is not in the price map and no frame quotes it, the
    loop leaves the strategy as it was and prints no trade line. *)
Theorem X8_no_trade_before_three_quotes ethGet0 fired n priceMap strategy frames symbol :
  symbol = FIL_ETH ∨ symbol = ETH_BSV ∨ symbol = FIL_BSV →
  priceMap !! symbol = None →
  (∀ q, Text q ∈ frames → Symbol q ≠ symbol) →
  let r := mainLoop ethGet0 fired n priceMap strategy (connectAndReceivePrices frames) in
  loopStrategy r = strategy
  ∧ tradeLines (loopOutput r) = []
  ∧ loopPrices r !! symbol = None.
Proof.
  intros Hsym Hnone Hno. cbv zeta.
  pose proof (feed_absent frames symbol Hno) as Hall.
  revert n priceMap strategy Hnone.
  induction Hall as [|price rest Hp _ IH]; intros n priceMap strategy Hnone.
  - repeat split. exact Hnone.
  - cbn [mainLoop]. unfold loopStrategy, loopOutput, loopPrices in *. cbn [fst snd].
    assert (Hstored : storePrices priceMap price !! symbol = None).
    { rewrite storePrices_union, lookup_union, Hp, Hnone. reflexivity. }
    assert (Hrun : Execute ethGet0 (storePrices priceMap price) strategy = (tt, strategy, [])).
    { apply Execute_absent. destruct Hsym as [-> | [-> | ->]]; auto. }
    rewrite Hrun. cbn [after printed fst snd fmap list_fmap app].
    destruct (IH (S n) _ strategy Hstored) as (Hs & Hout & Hmap).
    split; [exact Hs|]. split; [|exact Hmap].
    rewrite tradeLines_app, tradeLines_report, Hout. reflexivity.
Qed.

(** X9.  The ticker only prints: whenever it fires or does not, the loop
    ends with the same price map and the same strategy and prints the same
    trade lines. *)
Theorem X9_ticker_only_prints ethGet0 fired fired' n n' priceMap strategy received :
  let r := mainLoop ethGet0 fired n priceMap strategy received in
  let r' := mainLoop ethGet0 fired' n' priceMap strategy received in
  loopPrices r = loopPrices r'
  ∧ loopStrategy r = loopStrategy r'
  ∧ tradeLines (loopOutput r) = tradeLines (loopOutput r').
Proof.
  cbv zeta. revert n n' priceMap strategy.
  induction received as [|price rest IH]; intros n n' priceMap strategy;
    [repeat split|].
  cbn [mainLoop]. unfold loopStrategy, loopOutput, loopPrices in *. cbn [fst snd].
  destruct (IH (S n) (S n') (storePrices priceMap price)
              (after (Execute ethGet0 (storePrices priceMap price) strategy)))
    as (Hm & Hs & Hout).
  split; [exact Hm|]. split; [exact Hs|].
  rewrite !tradeLines_app, !tradeLines_report, Hout. reflexivity.
Qed.

(** X10.  No balance changes unseen: when the loop has printed no trade
    line, the strategy it ends with is the one it started from. *)
Theorem X10_every_change_is_printed ethGet0 fired n priceMap strategy received :
  tradeLines (loopOutput (mainLoop ethGet0 fired n priceMap strategy received)) = [] →
  loopStrategy (mainLoop ethGet0 fired n priceMap strategy received) = strategy.
Proof.
  revert n priceMap strategy.
  induction received as [|price rest IH]; intros n priceMap strategy; [reflexivity|].
  cbn [mainLoop]. unfold loopStrategy, loopOutput in *. cbn [fst snd].
  rewrite !tradeLines_app, tradeLines_Printed, tradeLines_report. cbn [app].
  intros Hnil. apply app_eq_nil in Hnil as [Hprinted Hrest].
  rewrite (IH _ _ _ Hrest). apply printed_silent. exact Hprinted.
Qed.

(** X11.  The price map holds the latest quote of a pair: after a quote
    [q] of one of the three pairs, read before any read error and followed
    by no other quote of its pair, the entry of that pair is [q]. *)
Theorem X11_last_quote_wins ethGet0 fired n priceMap strategy
    (before rest : list (Frame F)) (q : PriceInfo F) :
  ReadError ∉ before →
  Symbol q = FIL_ETH ∨ Symbol q = ETH_BSV ∨ Symbol q = FIL_BSV →
  (∀ q', Text q' ∈ rest → Symbol q' ≠ Symbol q) →
  loopPrices (mainLoop ethGet0 fired n priceMap strategy
                (connectAndReceivePrices (before ++ Text q :: rest)))
    !! Symbol q = Some q.
Proof.
  intros Hno Hsym Hrest.
  rewrite loopPrices_foldl, (feed_app_no_error _ _ Hno), foldl_app.
  cbn [connectAndReceivePrices]. unfold feedMessage at 1.
  rewrite bool_decide_eq_true_2 by exact Hsym. cbn [foldl].
  rewrite (foldl_storePrices_absent _ _ _ (feed_absent rest (Symbol q) Hrest)).
  rewrite storePrices_union, lookup_union, lookup_singleton_eq.
  destruct (foldl storePrices priceMap (connectAndReceivePrices before) !! Symbol q);
    reflexivity.
Qed.

(** X12.  [Execute] prints nothing exactly when a quote is missing or
    neither condition holds, and then it has changed nothing. *)
Theorem X12_silent_iff_no_trade (ethGet0 : F) (prices : gmap string (PriceInfo F))
    (s : TriArbStrategy F) :
  (printed (Execute ethGet0 prices s) = []
   ↔ (prices !! FIL_ETH = None ∨ prices !! ETH_BSV = None ∨ prices !! FIL_BSV = None)
     ∨ ∃ filEthPrice ethBsvPrice filBsvPrice,
         prices !! FIL_ETH = Some filEthPrice
         ∧ prices !! ETH_BSV = Some ethBsvPrice
         ∧ prices !! FIL_BSV = Some filBsvPrice
         ∧ forwardArbCond filEthPrice ethBsvPrice filBsvPrice s = false
         ∧ reverseArbCond filEthPrice ethBsvPrice filBsvPrice s = false)
  ∧ (printed (Execute ethGet0 prices s) = [] → after (Execute ethGet0 prices s) = s).
Proof.
  destruct (prices !! FIL_ETH) as [fe|] eqn:Hfe;
    [destruct (prices !! ETH_BSV) as [eb|] eqn:Heb;
      [destruct (prices !! FIL_BSV) as [fb|] eqn:Hfb|]|];
    try (rewrite Execute_absent by auto; split; [split; auto | reflexivity]).
  rewrite (Execute_run _ _ _ _ _ _ Hfe Heb Hfb). cbv zeta.
  destruct (forwardArbCond fe eb fb s) eqn:Hf, (reverseArbCond fe eb fb s) eqn:Hr;
    cbn [printed after fst snd app forwardLines reverseLines];
    (split; [split|]); try discriminate; try reflexivity.
  all: try (intros [[Hn | [Hn | Hn]] | (fe' & eb' & fb' & [= <-] & [= <-] & [= <-] & Hf' & Hr')];
            congruence).
  intros _. right. exists fe, eb, fb. auto.
Qed.

End MainLoop.

(** ** The conditions and the forward cycle in exact arithmetic *)

Section ExactEngine.
Local Open Scope Q_scope.









End ExactEngine.

(** ** Not-a-number in binary64 *)

Section NotANumber.
Local Open Scope float_scope.

Lemma NaN_is_nan x : NaN x ↔ PrimFloat.is_nan x = true.
Proof.
  unfold NaN, PrimFloat.is_nan. rewrite negb_true_iff, FloatAxioms.eqb_spec. unfold SFeqb.
  split.
  - intros ->. reflexivity.
  - destruct (Prim2SF x) as [sg | sg | | sg m e]; cbn; try discriminate; try reflexivity.
    + destruct sg; discriminate.
    + rewrite Z.compare_refl, Pos.compare_refl. destruct sg; discriminate.
Qed.

Lemma NaN_mul_l x y : NaN x → NaN (x * y).
Proof. unfold NaN. intros Hx. rewrite mul_spec, Hx. reflexivity. Qed.

Lemma NaN_mul_r x y : NaN y → NaN (x * y).
Proof. unfold NaN. intros Hy. rewrite mul_spec, Hy. destruct (Prim2SF x); reflexivity. Qed.

Lemma NaN_sub_r x y : NaN y → NaN (x - y).
Proof. unfold NaN. intros Hy. rewrite sub_spec, Hy. destruct (Prim2SF x); reflexivity. Qed.

Lemma NaN_add_r x y : NaN y → NaN (x + y).
Proof. unfold NaN. intros Hy. rewrite add_spec, Hy. destruct (Prim2SF x); reflexivity. Qed.

Lemma NaN_ltb_l x y : NaN x → PrimFloat.ltb x y = false.
Proof. unfold NaN. intros Hx. rewrite ltb_spec, Hx. reflexivity. Qed.

Lemma NaN_ltb_r x y : NaN y → PrimFloat.ltb x y = false.
Proof.
  unfold NaN. intros Hy. rewrite ltb_spec, Hy. unfold SFltb.
  destruct (Prim2SF x); reflexivity.
Qed.

(** X15.  A not-a-number never trades.  When one of the three prices a
    condition reads is not a number, that condition is false; when one of
    the two rates is not a number, both are, and [Execute] changes and
    prints nothing on any snapshot. *)
Theorem X15_nan_never_trades (ethGet0 : float) (prices : gmap string (PriceInfo float))
    (fe eb fb : PriceInfo float) (s : TriArbStrategy float) :
  (PrimFloat.is_nan (Ask fe) = true ∨ PrimFloat.is_nan (Ask eb) = true
   ∨ PrimFloat.is_nan (Bid fb) = true → forwardArbCond fe eb fb s = false)
  ∧ (PrimFloat.is_nan (Bid fe) = true ∨ PrimFloat.is_nan (Bid eb) = true
     ∨ PrimFloat.is_nan (Ask fb) = true → reverseArbCond fe eb fb s = false)
  ∧ (PrimFloat.is_nan (CostRate s) = true ∨ PrimFloat.is_nan (SlipRate s) = true →
     Execute ethGet0 prices s = (tt, s, [])).
Proof.
  rewrite <- !NaN_is_nan.
  assert (Hrates : NaN (CostRate s) ∨ NaN (SlipRate s) →
    ∀ fe eb fb, forwardArbCond fe eb fb s = false ∧ reverseArbCond fe eb fb s = false).
  { intros Hnan fe' eb' fb'. unfold forwardArbCond, reverseArbCond, fgtb. cbn.
    split; [apply NaN_ltb_r | apply NaN_ltb_l]; destruct Hnan as [Hc | Hl];
      auto using NaN_mul_l, NaN_mul_r, NaN_sub_r, NaN_add_r. }
  split; [|split].
  - unfold forwardArbCond. cbn. intros [Hn | [Hn | Hn]];
      [apply NaN_ltb_l | apply NaN_ltb_l | apply NaN_ltb_r];
      auto using NaN_mul_l, NaN_mul_r.
  - unfold reverseArbCond, fgtb. cbn. intros [Hn | [Hn | Hn]];
      [apply NaN_ltb_r | apply NaN_ltb_r | apply NaN_ltb_l];
      auto using NaN_mul_l, NaN_mul_r.
  - intros Hnan.
    destruct (prices !! FIL_ETH) as [fe'|] eqn:Hfe;
      [destruct (prices !! ETH_BSV) as [eb'|] eqn:Heb;
        [destruct (prices !! FIL_BSV) as [fb'|] eqn:Hfb|]|];
      try solve [apply Execute_absent; auto].
    rewrite (Execute_run _ _ _ _ _ _ Hfe Heb Hfb). cbv zeta.
    destruct (Hrates Hnan fe' eb' fb') as [-> ->]. reflexivity.
Qed.

(** Crossed books, on which both conditions hold at the rates of [main],
    and a fee rate that is not a number. *)
Lemma X15_nan_never_trades_witness :
  PrimFloat.is_nan (CostRate strategyNaN) = true
  ∧ Execute 0 crossedPrices strategyNaN = (tt, strategyNaN, []).
Proof.
  assert (Hnan : PrimFloat.is_nan (CostRate strategyNaN) = true) by reflexivity.
  split; [exact Hnan|].
  apply (X15_nan_never_trades 0 crossedPrices crossedFilEth crossedEthBsv crossedFilBsv
           strategyNaN).
  left. exact Hnan.
Defined.

End NotANumber.

(** ** Runs of [main] *)

Section MainRuns.
Local Open Scope float_scope.

Lemma framesTwoPairs_feed :
  connectAndReceivePrices framesTwoPairs
  = [ {[ FIL_ETH := forwardFilEth ]}; {[ ETH_BSV := forwardEthBsv ]} ].
Proof. reflexivity. Qed.

Lemma framesTwoPairs_no_FIL_BSV (q : PriceInfo float) :
  Text q ∈ framesTwoPairs → Symbol q ≠ FIL_BSV.
Proof.
  unfold framesTwoPairs. intros Hq Hs.
  repeat (apply elem_of_cons in Hq as [Hq | Hq];
          [try discriminate Hq; injection Hq as ->; discriminate Hs |]).
  apply elem_of_nil in Hq. exact Hq.
Qed.

(** A quote of another pair between two quotes that are forwarded. *)
Lemma X4_feed_skips_witness :
  skipped (Text otherQuote)
  ∧ connectAndReceivePrices ([Text forwardFilEth] ++ Text otherQuote :: [Text forwardEthBsv])
    = connectAndReceivePrices ([Text forwardFilEth] ++ [Text forwardEthBsv]).
Proof.
  assert (Hs : skipped (Text otherQuote))
    by (intros [Hq | [Hq | Hq]]; discriminate Hq).
  split; [exact Hs|].
  apply (X4_feed_skips [Text forwardFilEth] (Text otherQuote) [Text forwardEthBsv] Hs).
Defined.

(** The first map sent for [framesTwoPairs]. *)
Lemma X5_feed_sends_tracked_quotes_witness :
  {[ FIL_ETH := forwardFilEth ]} ∈ connectAndReceivePrices framesTwoPairs
  ∧ ∃ q, Text q ∈ framesTwoPairs
         ∧ ({[ FIL_ETH := forwardFilEth ]} : gmap string (PriceInfo float)) = {[ Symbol q := q ]}
         ∧ (Symbol q = FIL_ETH ∨ Symbol q = ETH_BSV ∨ Symbol q = FIL_BSV).
Proof.
  assert (Hin : {[ FIL_ETH := forwardFilEth ]} ∈ connectAndReceivePrices framesTwoPairs).
  { rewrite framesTwoPairs_feed. apply elem_of_cons. left. reflexivity. }
  split; [exact Hin|].
  exact (X5_feed_sends_tracked_quotes framesTwoPairs _ Hin).
Defined.

(** [main] starts from the empty map. *)
Lemma X6_price_map_stays_tracked_witness :
  tracked (∅ : gmap string (PriceInfo float))
  ∧ tracked (loopPrices (main 0 (λ _, false) framesTwoPairs)).
Proof.
  assert (Hempty : tracked (∅ : gmap string (PriceInfo float))).
  { intros symbol q Hq. rewrite lookup_empty in Hq. discriminate Hq. }
  split; [exact Hempty|].
  exact (X6_price_map_stays_tracked 0 (λ _, false) 0%nat ∅ strategy0 framesTwoPairs Hempty).
Defined.

(** [main] before any FIL-BSV quote. *)
Lemma X8_no_trade_before_three_quotes_witness :
  (∅ : gmap string (PriceInfo float)) !! FIL_BSV = None
  ∧ loopStrategy (main 0 (λ _, true) framesTwoPairs) = strategy0
  ∧ tradeLines (loopOutput (main 0 (λ _, true) framesTwoPairs)) = []
  ∧ loopPrices (main 0 (λ _, true) framesTwoPairs) !! FIL_BSV = None.
Proof.
  assert (Hnone : (∅ : gmap string (PriceInfo float)) !! FIL_BSV = None)
    by apply lookup_empty.
  split; [exact Hnone|].
  apply (X8_no_trade_before_three_quotes 0 (λ _, true) 0%nat ∅ strategy0 framesTwoPairs
           FIL_BSV (or_intror (or_intror eq_refl)) Hnone framesTwoPairs_no_FIL_BSV).
Defined.

(** [main] before any FIL-BSV quote, the ticker firing at every turn. *)
Lemma X10_every_change_is_printed_witness :
  tradeLines (loopOutput (main 0 (λ _, true) framesTwoPairs)) = []
  ∧ loopStrategy (main 0 (λ _, true) framesTwoPairs) = strategy0.
Proof.
  assert (Hquiet : tradeLines (loopOutput (main 0 (λ _, true) framesTwoPairs)) = [])
    by (vm_compute; reflexivity).
  split; [exact Hquiet|].
  exact (X10_every_change_is_printed 0 (λ _, true) 0%nat ∅ strategy0
           (connectAndReceivePrices framesTwoPairs) Hquiet).
Defined.

(** Two FIL-ETH quotes in a row, then an ETH-BSV quote. *)
Lemma X11_last_quote_wins_witness :
  (ReadError ∉ [Text forwardFilEth])
  ∧ loopPrices (main 0 (λ _, false)
                  ([Text forwardFilEth] ++ Text reverseFilEth :: [Text forwardEthBsv]))
      !! FIL_ETH = Some reverseFilEth.
Proof.
  assert (Hno : ReadError ∉ [Text forwardFilEth]).
  { intros Hin. apply elem_of_cons in Hin as [Hin | Hin]; [discriminate Hin|].
    apply elem_of_nil in Hin. exact Hin. }
  split; [exact Hno|].
  apply (X11_last_quote_wins 0 (λ _, false) 0%nat ∅ strategy0
           [Text forwardFilEth] [Text forwardEthBsv] reverseFilEth Hno).
  - left. reflexivity.
  - intros q' Hq' Hs. apply elem_of_cons in Hq' as [Hq' | Hq'].
    + injection Hq' as ->. discriminate Hs.
    + apply elem_of_nil in Hq'. exact Hq'.
Defined.

End MainRuns.
